(** * torch/csrc/DeviceAccelerator.cpp: the [torch.accelerator] bindings

    The file registers seven entry points on a Python module.  Each one is a
    short sequence of calls into the accelerator layer ([at::accelerator],
    [torch::utils]) that lives outside the file.  The embedding below keeps
    that shape: every entry point is a computation in a small state-and-error
    monad whose state is the accelerator layer's world, the interpreter lock
    and the chronological list of collaborator calls performed so far.  The
    accelerator layer itself is an interface ([Backend]); theorems quantify
    over all of its implementations. *)

From Stdlib Require Import ZArith List String Lia.
From stdpp Require Import base option list gmap.

Import ListNotations.
Local Open Scope Z_scope.

(** ** Values crossing the boundary *)

(** Modelled from the spec: [c10::DeviceType] is declared outside the file;
    the source names only [c10::kCPU].  The spec's glossary calls an
    accelerator "a non-CPU compute backend", so the remaining constructors
    stand for accelerator kinds. *)
Inductive DeviceType : Type :=
| kCPU
| kCUDA
| kXPU
| kMPS
| kHPU
| kMTIA
| kPrivateUse1.

#[global] Instance DeviceType_eq_dec : EqDecision DeviceType.
Proof. solve_decision. Defined.

(** [c10::DeviceIndex] is a small signed integer; negative values are the
    "unspecified" sentinel. *)
Definition DeviceIndex : Type := Z.

(** Modelled from the spec: [c10::Device], "an opaque device identifier
    (kind + index)". *)
Record Device : Type := mkDevice {
  device_type : DeviceType;
  device_idx : DeviceIndex
}.

(** Modelled from the spec: the one-argument constructor [c10::Device(type)]
    used at line 12 leaves the index unspecified, that is, at the negative
    sentinel. *)
Definition Device_of_type (t : DeviceType) : Device :=
  {| device_type := t; device_idx := -1 |}.

(** Modelled from the spec: [c10::Stream], "an opaque stream handle
    (associated with a device index)". *)
Record Stream : Type := mkStream {
  stream_device : Device;
  stream_id : Z
}.

(** [stream.device_index()] *)
Definition device_index (s : Stream) : DeviceIndex :=
  device_idx (stream_device s).

#[global] Instance Device_eq_dec : EqDecision Device.
Proof. solve_decision. Defined.

#[global] Instance Stream_eq_dec : EqDecision Stream.
Proof. solve_decision. Defined.

(** ** Failures *)

Inductive exn : Type :=
| NoAccelerator                 (* strict resolution found no accelerator *)
| bad_optional_access           (* [std::optional::value()] on an empty optional *)
| BackendError (msg : string).  (* anything else the accelerator layer raises *)

Inductive outcome (A : Type) : Type :=
| Returned (a : A)
| Raised (e : exn).

Arguments Returned {A} a.
Arguments Raised {A} e.

Definition is_raised {A : Type} (r : outcome A) : bool :=
  match r with
  | Returned _ => false
  | Raised _ => true
  end.

(** ** Collaborator calls, as they appear in the call log

    The blocking wait is logged together with the status of the interpreter
    lock at the moment it is entered: [ESynchronizeDevice] when the lock has
    been given up, [ESynchronizeDeviceHoldingGil] when the caller still holds
    it. *)

Inductive Event : Type :=
| EGetAccelerator (checked : bool)
| EMaybeInitializeDevice (t : DeviceType)
| EMaybeInitializeDeviceOpt (t : option DeviceType)
| EIsDeviceInitialized (t : DeviceType)
| EDeviceCount
| ESetDeviceIndex (i : DeviceIndex)
| EGetDeviceIndex
| ESetCurrentStream (s : Stream)
| EGetCurrentStream (i : DeviceIndex)
| ESynchronizeDevice (i : DeviceIndex)
| ESynchronizeDeviceHoldingGil (i : DeviceIndex)
| EGilRelease
| EGilAcquire.

#[global] Instance Event_eq_dec : EqDecision Event.
Proof. solve_decision. Defined.

(** ** The accelerator layer

    What the file needs from its collaborators.  Every call may change the
    layer's world and may raise.  [maybe_initialize_device] is called through
    two overloads: on a device type (lines 28, 34, 40, 50, 59) and on an
    optional device type (line 18). *)
Class Backend (W : Type) : Type := {
  available : W -> option DeviceType;
  maybe_initialize_device : DeviceType -> W -> outcome unit * W;
  maybe_initialize_device_opt : option DeviceType -> W -> outcome unit * W;
  is_device_initialized : DeviceType -> W -> outcome bool * W;
  deviceCount : W -> outcome DeviceIndex * W;
  setDeviceIndex : DeviceIndex -> W -> outcome unit * W;
  getDeviceIndex : W -> outcome DeviceIndex * W;
  setCurrentStream : Stream -> W -> outcome unit * W;
  getCurrentStream : DeviceIndex -> W -> outcome Stream * W;
  synchronizeDevice : DeviceIndex -> W -> outcome unit * W
}.

(** ** Machine state and the monad of the bindings *)

Record Machine (W : Type) : Type := mkMachine {
  world : W;
  gil_held : bool;
  trace : list Event
}.

Arguments mkMachine {W} world gil_held trace.
Arguments world {W} m.
Arguments gil_held {W} m.
Arguments trace {W} m.

Definition M (W A : Type) : Type := Machine W -> outcome A * Machine W.

Definition ret {W A : Type} (a : A) : M W A :=
  fun s => (Returned a, s).

Definition raise {W A : Type} (e : exn) : M W A :=
  fun s => (Raised e, s).

Definition bind {W A B : Type} (m : M W A) (k : A -> M W B) : M W B :=
  fun s =>
    match m s with
    | (Returned a, s') => k a s'
    | (Raised e, s') => (Raised e, s')
    end.

Declare Scope accel_scope.
Delimit Scope accel_scope with accel.

Notation "x <- m ;; k" := (bind m (fun x => k))
  (at level 100, m at next level, right associativity) : accel_scope.
Notation "m ;;; k" := (bind m (fun _ => k))
  (at level 100, right associativity) : accel_scope.

Local Open Scope accel_scope.

(** A call into the accelerator layer: run it on the world, append it to the
    log. *)
Definition call {W A : Type} (ev : Event) (op : W -> outcome A * W) : M W A :=
  fun s =>
    let '(r, w') := op (world s) in
    (r, {| world := w'; gil_held := gil_held s; trace := trace s ++ [ev] |}).

(** A call that may block: like [call], and the entry of the log is chosen by
    the lock status of the machine at the moment of the call. *)
Definition blocking_call {W A : Type} (ev : bool -> Event)
    (op : W -> outcome A * W) : M W A :=
  fun s =>
    let '(r, w') := op (world s) in
    (r, {| world := w'; gil_held := gil_held s;
           trace := trace s ++ [ev (gil_held s)] |}).

Definition synchronize_event (i : DeviceIndex) (held : bool) : Event :=
  if held then ESynchronizeDeviceHoldingGil i else ESynchronizeDevice i.

(** [opt.value()]: the contained value, or [std::bad_optional_access]. *)
Definition value {W A : Type} (o : option A) : M W A :=
  match o with
  | Some a => ret a
  | None => raise bad_optional_access
  end.

(** [opt.value_or(d)] *)
Definition value_or {A : Type} (o : option A) (d : A) : A :=
  match o with
  | Some a => a
  | None => d
  end.

(** [py::gil_scoped_release]: the constructor gives the interpreter lock up,
    the destructor takes it back when the enclosing block is left, whether the
    block finishes or an exception unwinds through it. *)
Definition gil_release {W : Type} (s : Machine W) : Machine W :=
  {| world := world s; gil_held := false; trace := trace s ++ [EGilRelease] |}.

Definition gil_acquire {W : Type} (s : Machine W) : Machine W :=
  {| world := world s; gil_held := true; trace := trace s ++ [EGilAcquire] |}.

Definition gil_scoped_release {W A : Type} (body : M W A) : M W A :=
  fun s =>
    let '(r, s') := body (gil_release s) in
    (r, gil_acquire s').



(** ** The bindings *)

Section Bindings.
Context {W : Type} `{!Backend W}.

(** Modelled from the spec: [at::accelerator::getAccelerator(checked)],
    "accelerator resolution (optionally strict -- fail vs. return none)";
    the failure is the "no accelerator available" of the spec's section 7.
    It is a query: the world is left as it was. *)
Definition getAccelerator (checked : bool) : M W (option DeviceType) :=
  call (EGetAccelerator checked)
    (fun w =>
       match available w with
       | Some t => (Returned (Some t), w)
       | None =>
           if checked then (Raised NoAccelerator, w) else (Returned None, w)
       end).

(* lines 10-14 *)
Definition _accelerator_getAccelerator : M W Device :=
  acc <- getAccelerator false ;;
  ret (Device_of_type (value_or acc kCPU)).

(* lines 16-20 *)
Definition _accelerator_deviceCount : M W DeviceIndex :=
  device_type <- getAccelerator false ;;
  (call (EMaybeInitializeDeviceOpt device_type)
        (maybe_initialize_device_opt device_type) ;;;
   call EDeviceCount deviceCount).

(* lines 22-30 *)
Definition _accelerator_setDeviceIndex (device_index : DeviceIndex) : M W unit :=
  acc <- getAccelerator true ;;
  device_type <- value acc ;;
  if device_index <? 0 then ret tt
  else
    (call (EMaybeInitializeDevice device_type)
          (maybe_initialize_device device_type) ;;;
     call (ESetDeviceIndex device_index) (setDeviceIndex device_index)).

(* lines 32-36 *)
Definition _accelerator_getDeviceIndex : M W DeviceIndex :=
  acc <- getAccelerator true ;;
  device_type <- value acc ;;
  (call (EMaybeInitializeDevice device_type)
        (maybe_initialize_device device_type) ;;;
   call EGetDeviceIndex getDeviceIndex).

(* lines 38-46 *)
Definition _accelerator_setStream (stream : Stream) : M W unit :=
  acc <- getAccelerator true ;;
  device_type <- value acc ;;
  (call (EMaybeInitializeDevice device_type)
        (maybe_initialize_device device_type) ;;;
   (current <- call EGetDeviceIndex getDeviceIndex ;;
    ((if negb (current =? device_index stream)
      then call (ESetDeviceIndex (device_index stream))
                (setDeviceIndex (device_index stream))
      else ret tt) ;;;
     call (ESetCurrentStream stream) (setCurrentStream stream)))).

(* lines 48-52 *)
Definition _accelerator_getStream (device_index : DeviceIndex) : M W Stream :=
  acc <- getAccelerator true ;;
  device_type <- value acc ;;
  (call (EMaybeInitializeDevice device_type)
        (maybe_initialize_device device_type) ;;;
   call (EGetCurrentStream device_index) (getCurrentStream device_index)).

(* lines 54-64 *)
Definition _accelerator_synchronizeDevice (device_index : DeviceIndex) : M W unit :=
  acc <- getAccelerator true ;;
  device_type <- value acc ;;
  initialized <- call (EIsDeviceInitialized device_type)
                      (is_device_initialized device_type) ;;
  if negb initialized then ret tt
  else
    (call (EMaybeInitializeDevice device_type)
          (maybe_initialize_device device_type) ;;;
     gil_scoped_release
       (blocking_call (synchronize_event device_index)
             (synchronizeDevice device_index))).

End Bindings.

(** ** Contract of the index and stream primitives *)

(** What a caller may expect of the index and stream primitives: a value that
    was set is the value read back, and activating a stream does not move the
    active device index.  These are properties of the accelerator layer, not
    of the bindings; the theorems that speak about the state after a call
    assume them. *)
Class LawfulBackend (W : Type) `{!Backend W} : Prop := {
  getDeviceIndex_after_set :
    forall (i : DeviceIndex) (w w' : W),
      setDeviceIndex i w = (Returned tt, w') ->
      fst (getDeviceIndex w') = Returned i;
  getCurrentStream_after_set :
    forall (st : Stream) (w w' : W),
      setCurrentStream st w = (Returned tt, w') ->
      fst (getCurrentStream (device_index st) w') = Returned st;
  getDeviceIndex_after_setCurrentStream :
    forall (st : Stream) (w w' : W),
      setCurrentStream st w = (Returned tt, w') ->
      fst (getDeviceIndex w') = fst (getDeviceIndex w)
}.

(** ** A mocked accelerator layer

    Modelled from the spec: the "mocked accelerator collaborator" of the
    spec's section 8, supplying what section 6 lists: resolution, lazy
    per-kind initialization, the device-initialized query, device index
    get/set, current-stream get/set and the synchronize primitive.  It is
    used to run the bindings on concrete inputs. *)
Module Mock.

Record World : Type := mkWorld {
  accelerator : option DeviceType;     (* the backend that is available *)
  initialized : list DeviceType;       (* kinds whose subsystem is set up *)
  devices : Z;                         (* number of devices *)
  current : DeviceIndex;               (* active device index *)
  streams : gmap Z Stream;             (* current stream per device index *)
  synchronized : list DeviceIndex      (* synchronize calls served *)
}.

Definition in_range (w : World) (i : DeviceIndex) : bool :=
  (0 <=? i) && (i <? devices w).

Definition initialize (t : DeviceType) (w : World) : World :=
  if bool_decide (t ∈ initialized w) then w
  else mkWorld (accelerator w) (t :: initialized w) (devices w)
               (current w) (streams w) (synchronized w).

Definition default_stream (w : World) (i : DeviceIndex) : Stream :=
  {| stream_device := {| device_type := value_or (accelerator w) kCPU;
                         device_idx := i |};
     stream_id := 0 |}.

#[global] Instance backend : Backend World := {|
  available := accelerator;
  maybe_initialize_device := fun t w => (Returned tt, initialize t w);
  maybe_initialize_device_opt := fun o w =>
    match o with
    | Some t => (Returned tt, initialize t w)
    | None => (Returned tt, w)
    end;
  is_device_initialized := fun t w =>
    (Returned (bool_decide (t ∈ initialized w)), w);
  deviceCount := fun w => (Returned (devices w), w);
  setDeviceIndex := fun i w =>
    if in_range w i
    then (Returned tt,
          mkWorld (accelerator w) (initialized w) (devices w) i
                  (streams w) (synchronized w))
    else (Raised (BackendError "invalid device index"), w);
  getDeviceIndex := fun w => (Returned (current w), w);
  setCurrentStream := fun st w =>
    (Returned tt,
     mkWorld (accelerator w) (initialized w) (devices w) (current w)
             (<[device_index st := st]> (streams w)) (synchronized w));
  getCurrentStream := fun i w =>
    (Returned (default (default_stream w i) (streams w !! i)), w);
  synchronizeDevice := fun i w =>
    if in_range w i
    then (Returned tt,
          mkWorld (accelerator w) (initialized w) (devices w) (current w)
                  (streams w) (synchronized w ++ [i]))
    else (Raised (BackendError "invalid device index"), w)
|}.

(** A host without any accelerator. *)
Definition cpu_only : World := mkWorld None [] 0 0 ∅ [].

(** A host with two CUDA devices, nothing initialized yet, device 0 active. *)
Definition cuda_fresh : World := mkWorld (Some kCUDA) [] 2 0 ∅ [].

(** The same host after the CUDA subsystem has been set up. *)
Definition cuda_ready : World := mkWorld (Some kCUDA) [kCUDA] 2 0 ∅ [].

(** A stream of device 1 and a stream of device 0. *)
Definition stream1 : Stream := mkStream (mkDevice kCUDA 1) 7.
Definition stream0 : Stream := mkStream (mkDevice kCUDA 0) 5.

(** A call from Python enters with the interpreter lock held. *)
Definition enter (w : World) : Machine World := mkMachine w true [].

End Mock.

(** ** Reading the call log of a run *)

(** The calls that a run adds to the log, taken together, satisfy [P]. *)
Definition emits {W A : Type} (P : list Event -> Prop) (m : M W A)
    (s : Machine W) : Prop :=
  exists evs : list Event, trace (snd (m s)) = trace s ++ evs /\ P evs.

Definition is_lock_marker (e : Event) : bool :=
  match e with
  | EGilRelease | EGilAcquire => true
  | _ => false
  end.

(** The calls that change the active device or stream, or wait for a device. *)
Definition is_set_or_sync (e : Event) : bool :=
  match e with
  | ESetDeviceIndex _ | ESetCurrentStream _ | ESynchronizeDevice _
  | ESynchronizeDeviceHoldingGil _ => true
  | _ => false
  end.

Definition is_resolution (e : Event) : bool :=
  match e with
  | EGetAccelerator _ => true
  | _ => false
  end.

Definition is_initialization (e : Event) : bool :=
  match e with
  | EMaybeInitializeDevice _ | EMaybeInitializeDeviceOpt _ => true
  | _ => false
  end.

(** The calls of [at::accelerator] that act on devices and streams. *)
Definition is_device_call (e : Event) : bool :=
  match e with
  | EDeviceCount | ESetDeviceIndex _ | EGetDeviceIndex | ESetCurrentStream _
  | EGetCurrentStream _ | ESynchronizeDevice _
  | ESynchronizeDeviceHoldingGil _ => true
  | _ => false
  end.

(** The log starts with one resolution of the given strictness and holds no
    other resolution. *)
Definition resolves_first (checked : bool) (l : list Event) : bool :=
  match l with
  | EGetAccelerator c :: l' =>
      Bool.eqb c checked && forallb (fun e => negb (is_resolution e)) l'
  | _ => false
  end.

(** Every device call of the log comes after a lazy initialization. *)
Fixpoint initialized_before_use (ready : bool) (l : list Event) : bool :=
  match l with
  | [] => true
  | e :: l' =>
      if is_initialization e then initialized_before_use true l'
      else if is_device_call e then ready && initialized_before_use ready l'
      else initialized_before_use ready l'
  end.

(** The failure of an outcome, if it is one. *)
Definition failure {A : Type} (r : outcome A) : option exn :=
  match r with
  | Returned _ => None
  | Raised e => Some e
  end.

Definition settle {W A : Type} (p : outcome A * W) : option exn * W :=
  (failure (fst p), snd p).

Section Replay.
Context {W : Type} `{!Backend W}.

(** The collaborator call behind a log entry, run on a world of the
    accelerator layer: the failure it raises, if any, and the world it
    leaves.  The lock markers call no collaborator. *)
Definition perform (ev : Event) (w : W) : option exn * W :=
  match ev with
  | EGetAccelerator checked =>
      let '(r, m) := getAccelerator checked (mkMachine w true []) in
      (failure r, world m)
  | EMaybeInitializeDevice t => settle (maybe_initialize_device t w)
  | EMaybeInitializeDeviceOpt o => settle (maybe_initialize_device_opt o w)
  | EIsDeviceInitialized t => settle (is_device_initialized t w)
  | EDeviceCount => settle (deviceCount w)
  | ESetDeviceIndex i => settle (setDeviceIndex i w)
  | EGetDeviceIndex => settle (getDeviceIndex w)
  | ESetCurrentStream st => settle (setCurrentStream st w)
  | EGetCurrentStream i => settle (getCurrentStream i w)
  | ESynchronizeDevice i => settle (synchronizeDevice i w)
  | ESynchronizeDeviceHoldingGil i => settle (synchronizeDevice i w)
  | EGilRelease | EGilAcquire => (None, w)
  end.

(** Run the calls of a log in order, from a world, up to the first one that
    raises: the failure, the world reached, and the entries of the log that
    were not run. *)
Fixpoint replay (l : list Event) (w : W) : option exn * W * list Event :=
  match l with
  | [] => (None, w, [])
  | ev :: l' =>
      match perform ev w with
      | (Some e, w') => (Some e, w', l')
      | (None, w') => replay l' w'
      end
  end.

(** A run is what its log says: replaying the calls it logged, from the
    world it started in, gives the failure it raised (none when it
    returned) and the world it left, and after a call that raised nothing is
    logged but lock markers. *)
Definition replays_its_log {A : Type} (m : M W A) (s : Machine W) : Prop :=
  emits (fun evs =>
           exists rest : list Event,
             replay evs (world s)
             = (failure (fst (m s)), world (snd (m s)), rest)
             /\ forallb is_lock_marker rest = true)
        m s.

End Replay.

(** Lazy initialization does not disturb what the index and stream queries
    report.  Like [LawfulBackend], a property of the accelerator layer that
    the theorems about sequences of calls assume. *)
Class TransparentInit (W : Type) `{!Backend W} : Prop := {
  getDeviceIndex_after_init :
    forall (t : DeviceType) (w w' : W),
      maybe_initialize_device t w = (Returned tt, w') ->
      fst (getDeviceIndex w') = fst (getDeviceIndex w);
  getCurrentStream_after_init :
    forall (t : DeviceType) (i : DeviceIndex) (w w' : W),
      maybe_initialize_device t w = (Returned tt, w') ->
      fst (getCurrentStream i w') = fst (getCurrentStream i w)
}.

(** ** Sanity runs on the mocked layer *)

Example run_getAccelerator_cpu :
  fst (_accelerator_getAccelerator (Mock.enter Mock.cpu_only))
  = Returned (mkDevice kCPU (-1)).
Proof. reflexivity. Qed.

Example run_setStream_switch :
  trace (snd (_accelerator_setStream Mock.stream1 (Mock.enter Mock.cuda_fresh)))
  = [EGetAccelerator true; EMaybeInitializeDevice kCUDA; EGetDeviceIndex;
     ESetDeviceIndex 1; ESetCurrentStream Mock.stream1].
Proof. vm_compute. reflexivity. Qed.

Example run_synchronize_ready :
  trace (snd (_accelerator_synchronizeDevice 1 (Mock.enter Mock.cuda_ready)))
  = [EGetAccelerator true; EIsDeviceInitialized kCUDA;
     EMaybeInitializeDevice kCUDA; EGilRelease; ESynchronizeDevice 1;
     EGilAcquire].
Proof. vm_compute. reflexivity. Qed.

Example run_synchronize_out_of_range :
  fst (_accelerator_synchronizeDevice 5 (Mock.enter Mock.cuda_ready))
  = Raised (BackendError "invalid device index").
Proof. vm_compute. reflexivity. Qed.

(** ** Equations of the monad *)

Section Equations.
Context {W : Type} `{!Backend W}.

Lemma bind_ret {A B : Type} (a : A) (k : A -> M W B) s :
  bind (ret a) k s = k a s.
Proof. reflexivity. Qed.

Lemma bind_returned {A B : Type} (m : M W A) (k : A -> M W B) s a s' :
  m s = (Returned a, s') -> bind m k s = k a s'.
Proof. intros Hm. unfold bind. now rewrite Hm. Qed.

Lemma bind_raised {A B : Type} (m : M W A) (k : A -> M W B) s e s' :
  m s = (Raised e, s') -> bind m k s = (Raised e, s').
Proof. intros Hm. unfold bind. now rewrite Hm. Qed.

Lemma call_outcome {A : Type} (ev : Event) (op : W -> outcome A * W) s r w' :
  op (world s) = (r, w') ->
  call ev op s = (r, mkMachine w' (gil_held s) (trace s ++ [ev])).
Proof. intros Hop. unfold call. now rewrite Hop. Qed.

(** Resolution finds the available accelerator, strict or not. *)
Lemma getAccelerator_found (checked : bool) s t :
  available (world s) = Some t ->
  getAccelerator checked s
  = (Returned (Some t),
     mkMachine (world s) (gil_held s) (trace s ++ [EGetAccelerator checked])).
Proof.
  intros Hav. unfold getAccelerator.
  apply call_outcome. now rewrite Hav.
Qed.

(** Strict resolution fails when nothing is available ... *)
Lemma getAccelerator_strict_none s :
  available (world s) = None ->
  getAccelerator true s
  = (Raised NoAccelerator,
     mkMachine (world s) (gil_held s) (trace s ++ [EGetAccelerator true])).
Proof.
  intros Hav. unfold getAccelerator.
  apply call_outcome. now rewrite Hav.
Qed.

(** ... and lenient resolution returns the empty optional. *)
Lemma getAccelerator_lenient_none s :
  available (world s) = None ->
  getAccelerator false s
  = (Returned None,
     mkMachine (world s) (gil_held s) (trace s ++ [EGetAccelerator false])).
Proof.
  intros Hav. unfold getAccelerator.
  apply call_outcome. now rewrite Hav.
Qed.

(** Lenient resolution never raises: it returns whatever is available. *)
Lemma getAccelerator_lenient s :
  getAccelerator false s
  = (Returned (available (world s)),
     mkMachine (world s) (gil_held s) (trace s ++ [EGetAccelerator false])).
Proof.
  destruct (available (world s)) as [t|] eqn:Hav.
  - now apply getAccelerator_found.
  - now apply getAccelerator_lenient_none.
Qed.

(** The prologue shared by five of the seven bindings (lines 23, 33, 39, 49,
    55): strict resolution followed by [.value()]. *)
Lemma strict_prologue_found {B : Type} (k : DeviceType -> M W B) s t :
  available (world s) = Some t ->
  bind (getAccelerator true) (fun acc => bind (value acc) k) s
  = k t (mkMachine (world s) (gil_held s) (trace s ++ [EGetAccelerator true])).
Proof.
  intros Hav.
  rewrite (bind_returned _ _ _ _ _ (getAccelerator_found true s t Hav)).
  reflexivity.
Qed.

Lemma strict_prologue_none {B : Type} (k : DeviceType -> M W B) s :
  available (world s) = None ->
  bind (getAccelerator true) (fun acc => bind (value acc) k) s
  = (Raised NoAccelerator,
     mkMachine (world s) (gil_held s) (trace s ++ [EGetAccelerator true])).
Proof.
  intros Hav. apply bind_raised. now apply getAccelerator_strict_none.
Qed.

End Equations.

(** The log grows at its end; bring a grown log back to "old log ++ new
    calls". *)
Lemma log_append {X : Type} (l new more : list X) :
  (l ++ new) ++ more = l ++ (new ++ more).
Proof. now rewrite <- app_assoc. Qed.

Create Rewrite HintDb accel_log.
#[global] Hint Rewrite @log_append : accel_log.

(** Take one collaborator call whose outcome is known. *)
Ltac run_call H :=
  first
    [ erewrite bind_returned by (apply call_outcome; simpl; exact H)
    | erewrite bind_raised by (apply call_outcome; simpl; exact H)
    | erewrite call_outcome by (simpl; exact H) ];
  cbn beta iota delta [world gil_held trace].

Ltac tidy_log := autorewrite with accel_log; simpl; try reflexivity.

(** ** Set device index *)

(** C1: for every negative device index and every prior state in which an
    accelerator is resolvable, [_accelerator_setDeviceIndex] returns normally,
    leaves the accelerator layer's world as it found it (so the device index
    that [getDeviceIndex] reports is the same before and after), and the only
    collaborator call it performs is the strict resolution: no device
    initialization and no set call. *)
Theorem setDeviceIndex_negative_is_noop :
  forall (W : Type) (B : Backend W) (i : DeviceIndex) (s : Machine W)
         (t : DeviceType),
    i < 0 ->
    available (world s) = Some t ->
    _accelerator_setDeviceIndex i s
    = (Returned tt,
       mkMachine (world s) (gil_held s) (trace s ++ [EGetAccelerator true]))
    /\ getDeviceIndex (world (snd (_accelerator_setDeviceIndex i s)))
       = getDeviceIndex (world s).
Proof.
  intros W B i s t Hneg Hav.
  assert (Hrun : _accelerator_setDeviceIndex i s
                 = (Returned tt,
                    mkMachine (world s) (gil_held s)
                              (trace s ++ [EGetAccelerator true]))).
  { unfold _accelerator_setDeviceIndex.
    rewrite (strict_prologue_found _ s t Hav).
    apply Z.ltb_lt in Hneg. now rewrite Hneg. }
  split; [exact Hrun | now rewrite Hrun].
Qed.

Lemma setDeviceIndex_negative_is_noop_witness :
  fst (_accelerator_setDeviceIndex (-1) (Mock.enter Mock.cuda_fresh))
  = Returned tt
  /\ world (snd (_accelerator_setDeviceIndex (-1) (Mock.enter Mock.cuda_fresh)))
     = Mock.cuda_fresh.
Proof.
  destruct (setDeviceIndex_negative_is_noop Mock.World Mock.backend (-1)
              (Mock.enter Mock.cuda_fresh) kCUDA) as [Hrun _].
  - lia.
  - reflexivity.
  - rewrite Hrun. split; reflexivity.
Defined.

(** C9: when no accelerator is resolvable, [_accelerator_setDeviceIndex] with
    a negative index raises the resolution failure instead of being a no-op:
    the strict resolution of line 23 runs before the sign test of line 25. *)
Theorem setDeviceIndex_negative_without_accelerator_raises :
  forall (W : Type) (B : Backend W) (i : DeviceIndex) (s : Machine W),
    i < 0 ->
    available (world s) = None ->
    _accelerator_setDeviceIndex i s
    = (Raised NoAccelerator,
       mkMachine (world s) (gil_held s) (trace s ++ [EGetAccelerator true])).
Proof.
  intros W B i s _ Hav.
  unfold _accelerator_setDeviceIndex.
  now apply strict_prologue_none.
Qed.

Lemma setDeviceIndex_negative_without_accelerator_raises_witness :
  _accelerator_setDeviceIndex (-1) (Mock.enter Mock.cpu_only)
  = (Raised NoAccelerator, mkMachine Mock.cpu_only true [EGetAccelerator true]).
Proof.
  apply (setDeviceIndex_negative_without_accelerator_raises
           Mock.World Mock.backend (-1) (Mock.enter Mock.cpu_only)).
  - lia.
  - reflexivity.
Defined.

(** ** Get current accelerator *)

(** C2: [_accelerator_getAccelerator] resolves leniently; when no accelerator
    backend is available it does not raise and returns a device identifier of
    CPU kind, and when one is available it returns the identifier of that
    accelerator.  Either way the accelerator layer's world is untouched. *)
Theorem getAccelerator_falls_back_to_cpu :
  forall (W : Type) (B : Backend W) (s : Machine W),
    (available (world s) = None ->
     _accelerator_getAccelerator s
     = (Returned (mkDevice kCPU (-1)),
        mkMachine (world s) (gil_held s) (trace s ++ [EGetAccelerator false])))
    /\
    (forall t : DeviceType,
        available (world s) = Some t ->
        _accelerator_getAccelerator s
        = (Returned (Device_of_type t),
           mkMachine (world s) (gil_held s)
                     (trace s ++ [EGetAccelerator false]))).
Proof.
  intros W B s. unfold _accelerator_getAccelerator. split.
  - intros Hnone.
    now rewrite (bind_returned _ _ _ _ _ (getAccelerator_lenient_none s Hnone)).
  - intros t Hsome.
    now rewrite (bind_returned _ _ _ _ _ (getAccelerator_found false s t Hsome)).
Qed.

Lemma getAccelerator_falls_back_to_cpu_witness :
  fst (_accelerator_getAccelerator (Mock.enter Mock.cpu_only))
  = Returned (mkDevice kCPU (-1))
  /\ fst (_accelerator_getAccelerator (Mock.enter Mock.cuda_fresh))
     = Returned (mkDevice kCUDA (-1)).
Proof.
  split.
  - destruct (getAccelerator_falls_back_to_cpu Mock.World Mock.backend
                (Mock.enter Mock.cpu_only)) as [Hcpu _].
    rewrite Hcpu; reflexivity.
  - destruct (getAccelerator_falls_back_to_cpu Mock.World Mock.backend
                (Mock.enter Mock.cuda_fresh)) as [_ Hacc].
    rewrite (Hacc kCUDA); reflexivity.
Defined.

(** ** Device count *)

(** C6: [_accelerator_deviceCount] takes no input; it resolves the
    accelerator leniently, hands the resolved kind to the lazy initialization
    and only then asks the collaborator for the device count, which it
    returns as it is.  When the initialization raises, the count is never
    asked for. *)
Theorem deviceCount_initializes_then_counts :
  forall (W : Type) (B : Backend W) (s : Machine W),
    (forall (w1 w2 : W) (n : DeviceIndex),
        maybe_initialize_device_opt (available (world s)) (world s)
        = (Returned tt, w1) ->
        deviceCount w1 = (Returned n, w2) ->
        _accelerator_deviceCount s
        = (Returned n,
           mkMachine w2 (gil_held s)
             (trace s ++ [EGetAccelerator false;
                          EMaybeInitializeDeviceOpt (available (world s));
                          EDeviceCount])))
    /\
    (forall (w1 : W) (e : exn),
        maybe_initialize_device_opt (available (world s)) (world s)
        = (Raised e, w1) ->
        _accelerator_deviceCount s
        = (Raised e,
           mkMachine w1 (gil_held s)
             (trace s ++ [EGetAccelerator false;
                          EMaybeInitializeDeviceOpt (available (world s))]))).
Proof.
  intros W B s.
  unfold _accelerator_deviceCount.
  rewrite (bind_returned _ _ _ _ _ (getAccelerator_lenient s)).
  split.
  - intros w1 w2 n Hinit Hcount.
    run_call Hinit. run_call Hcount. tidy_log.
  - intros w1 e Hinit.
    run_call Hinit. tidy_log.
Qed.

Lemma deviceCount_initializes_then_counts_witness :
  _accelerator_deviceCount (Mock.enter Mock.cuda_fresh)
  = (Returned 2,
     mkMachine Mock.cuda_ready true
       [EGetAccelerator false; EMaybeInitializeDeviceOpt (Some kCUDA);
        EDeviceCount]).
Proof.
  destruct (deviceCount_initializes_then_counts Mock.World Mock.backend
              (Mock.enter Mock.cuda_fresh)) as [Hok _].
  apply (Hok Mock.cuda_ready Mock.cuda_ready 2); reflexivity.
Defined.

(** ** Get stream *)

(** C8: for every device index, with a resolvable accelerator,
    [_accelerator_getStream] initializes the device subsystem and returns
    exactly the stream that the collaborator reports as current for that
    index; a failure of the collaborator's query is passed on as it is. *)
Theorem getStream_returns_collaborator_stream :
  forall (W : Type) (B : Backend W) (i : DeviceIndex) (s : Machine W)
         (t : DeviceType) (w1 w2 : W) (r : outcome Stream),
    available (world s) = Some t ->
    maybe_initialize_device t (world s) = (Returned tt, w1) ->
    getCurrentStream i w1 = (r, w2) ->
    _accelerator_getStream i s
    = (r,
       mkMachine w2 (gil_held s)
         (trace s ++ [EGetAccelerator true; EMaybeInitializeDevice t;
                      EGetCurrentStream i])).
Proof.
  intros W B i s t w1 w2 r Hav Hinit Hget.
  unfold _accelerator_getStream.
  rewrite (strict_prologue_found _ s t Hav).
  run_call Hinit. run_call Hget. tidy_log.
Qed.

Lemma getStream_returns_collaborator_stream_witness :
  _accelerator_getStream 1 (Mock.enter Mock.cuda_fresh)
  = (Returned (mkStream (mkDevice kCUDA 1) 0),
     mkMachine Mock.cuda_ready true
       [EGetAccelerator true; EMaybeInitializeDevice kCUDA;
        EGetCurrentStream 1]).
Proof.
  apply (getStream_returns_collaborator_stream Mock.World Mock.backend 1
           (Mock.enter Mock.cuda_fresh) kCUDA Mock.cuda_ready Mock.cuda_ready);
    reflexivity.
Defined.

(** ** Synchronize device *)

(** C3: for every device index, when the accelerator is resolvable and the
    collaborator reports its device subsystem as not initialized,
    [_accelerator_synchronizeDevice] returns at once: the only collaborator
    calls are the resolution and the initialized query, so neither the
    blocking synchronize primitive nor the lazy initialization runs, and the
    interpreter lock is never given up. *)
Theorem synchronizeDevice_uninitialized_is_noop :
  forall (W : Type) (B : Backend W) (i : DeviceIndex) (s : Machine W)
         (t : DeviceType) (w1 : W),
    available (world s) = Some t ->
    is_device_initialized t (world s) = (Returned false, w1) ->
    _accelerator_synchronizeDevice i s
    = (Returned tt,
       mkMachine w1 (gil_held s)
         (trace s ++ [EGetAccelerator true; EIsDeviceInitialized t])).
Proof.
  intros W B i s t w1 Hav Hquery.
  unfold _accelerator_synchronizeDevice.
  rewrite (strict_prologue_found _ s t Hav).
  run_call Hquery. unfold ret. tidy_log.
Qed.

Lemma synchronizeDevice_uninitialized_is_noop_witness :
  _accelerator_synchronizeDevice 1 (Mock.enter Mock.cuda_fresh)
  = (Returned tt,
     mkMachine Mock.cuda_fresh true
       [EGetAccelerator true; EIsDeviceInitialized kCUDA]).
Proof.
  apply (synchronizeDevice_uninitialized_is_noop Mock.World Mock.backend 1
           (Mock.enter Mock.cuda_fresh) kCUDA Mock.cuda_fresh); reflexivity.
Defined.

(** ** Set stream *)

#[global] Instance Mock_lawful : LawfulBackend Mock.World.
Proof.
  split.
  - intros i w w'. simpl. destruct (Mock.in_range w i); [|discriminate].
    intros [= <-]. reflexivity.
  - intros st w w'. simpl. intros [= <-]. simpl.
    now rewrite lookup_insert_eq.
  - intros st w w'. simpl. intros [= <-]. reflexivity.
Qed.

(** C4: for a stream bound to device index D, when the active device index
    read at line 42 is not D, [_accelerator_setStream] calls the collaborator's
    set-device-index with D and only afterwards activates the stream; if the
    switch raises, the stream is never activated.  With a lawful accelerator
    layer, after a normal return the active device index is D and the current
    stream on D is the given stream. *)
Theorem setStream_switches_device_first :
  forall (W : Type) (B : Backend W) (stream : Stream) (s : Machine W)
         (t : DeviceType) (w1 w2 : W) (c : DeviceIndex),
    available (world s) = Some t ->
    maybe_initialize_device t (world s) = (Returned tt, w1) ->
    getDeviceIndex w1 = (Returned c, w2) ->
    c <> device_index stream ->
    (forall (w3 w4 : W) (r : outcome unit),
        setDeviceIndex (device_index stream) w2 = (Returned tt, w3) ->
        setCurrentStream stream w3 = (r, w4) ->
        _accelerator_setStream stream s
        = (r,
           mkMachine w4 (gil_held s)
             (trace s ++ [EGetAccelerator true; EMaybeInitializeDevice t;
                          EGetDeviceIndex;
                          ESetDeviceIndex (device_index stream);
                          ESetCurrentStream stream]))
        /\ (LawfulBackend W -> r = Returned tt ->
            fst (getDeviceIndex w4) = Returned (device_index stream)
            /\ fst (getCurrentStream (device_index stream) w4)
               = Returned stream))
    /\
    (forall (w3 : W) (e : exn),
        setDeviceIndex (device_index stream) w2 = (Raised e, w3) ->
        _accelerator_setStream stream s
        = (Raised e,
           mkMachine w3 (gil_held s)
             (trace s ++ [EGetAccelerator true; EMaybeInitializeDevice t;
                          EGetDeviceIndex;
                          ESetDeviceIndex (device_index stream)]))).
Proof.
  intros W B stream s t w1 w2 c Hav Hinit Hget Hneq.
  apply Z.eqb_neq in Hneq.
  unfold _accelerator_setStream.
  rewrite (strict_prologue_found _ s t Hav).
  run_call Hinit. run_call Hget. rewrite Hneq. simpl.
  split.
  - intros w3 w4 r Hset Hact. split.
    + run_call Hset. run_call Hact. tidy_log.
    + intros Hlaw ->. split.
      * rewrite (getDeviceIndex_after_setCurrentStream stream w3 w4 Hact).
        exact (getDeviceIndex_after_set _ w2 w3 Hset).
      * exact (getCurrentStream_after_set stream w3 w4 Hact).
  - intros w3 e Hset.
    run_call Hset. tidy_log.
Qed.

Lemma setStream_switches_device_first_witness :
  trace (snd (_accelerator_setStream Mock.stream1 (Mock.enter Mock.cuda_fresh)))
  = [EGetAccelerator true; EMaybeInitializeDevice kCUDA; EGetDeviceIndex;
     ESetDeviceIndex 1; ESetCurrentStream Mock.stream1]
  /\ fst (getDeviceIndex
            (world (snd (_accelerator_setStream Mock.stream1
                           (Mock.enter Mock.cuda_fresh)))))
     = Returned 1
  /\ fst (getCurrentStream 1
            (world (snd (_accelerator_setStream Mock.stream1
                           (Mock.enter Mock.cuda_fresh)))))
     = Returned Mock.stream1.
Proof.
  destruct (setStream_switches_device_first Mock.World Mock.backend
              Mock.stream1 (Mock.enter Mock.cuda_fresh) kCUDA
              Mock.cuda_ready Mock.cuda_ready 0) as [Hok _].
  - reflexivity.
  - reflexivity.
  - reflexivity.
  - vm_compute. discriminate.
  - destruct (Hok (Mock.mkWorld (Some kCUDA) [kCUDA] 2 1 ∅ [])
                  (Mock.mkWorld (Some kCUDA) [kCUDA] 2 1
                     (<[1 := Mock.stream1]> ∅) [])
                  (Returned tt)) as [Hrun Hpost].
    + reflexivity.
    + reflexivity.
    + rewrite Hrun. simpl.
      destruct (Hpost Mock_lawful eq_refl) as [Hidx Hstr].
      split; [reflexivity | split; [exact Hidx | exact Hstr]].
Defined.

(** C10: when the active device index read at line 42 already equals the
    stream's device index, [_accelerator_setStream] does not call the
    collaborator's set-device-index: after the read the only call is the
    activation of the stream, whose outcome is the binding's outcome.  With a
    lawful accelerator layer the active device index after a normal return is
    the one read before. *)
Theorem setStream_same_device_skips_setDeviceIndex :
  forall (W : Type) (B : Backend W) (stream : Stream) (s : Machine W)
         (t : DeviceType) (w1 w2 w3 : W) (r : outcome unit),
    available (world s) = Some t ->
    maybe_initialize_device t (world s) = (Returned tt, w1) ->
    getDeviceIndex w1 = (Returned (device_index stream), w2) ->
    setCurrentStream stream w2 = (r, w3) ->
    _accelerator_setStream stream s
    = (r,
       mkMachine w3 (gil_held s)
         (trace s ++ [EGetAccelerator true; EMaybeInitializeDevice t;
                      EGetDeviceIndex; ESetCurrentStream stream]))
    /\ (LawfulBackend W -> r = Returned tt ->
        fst (getDeviceIndex w3) = fst (getDeviceIndex w2)).
Proof.
  intros W B stream s t w1 w2 w3 r Hav Hinit Hget Hact.
  split.
  - unfold _accelerator_setStream.
    rewrite (strict_prologue_found _ s t Hav).
    run_call Hinit. run_call Hget.
    rewrite Z.eqb_refl. cbn [negb].
    rewrite bind_ret.
    run_call Hact. tidy_log.
  - intros Hlaw ->.
    exact (getDeviceIndex_after_setCurrentStream stream w2 w3 Hact).
Qed.

Lemma setStream_same_device_skips_setDeviceIndex_witness :
  trace (snd (_accelerator_setStream Mock.stream0 (Mock.enter Mock.cuda_fresh)))
  = [EGetAccelerator true; EMaybeInitializeDevice kCUDA; EGetDeviceIndex;
     ESetCurrentStream Mock.stream0]
  /\ Mock.current
       (world (snd (_accelerator_setStream Mock.stream0
                      (Mock.enter Mock.cuda_fresh))))
     = 0.
Proof.
  destruct (setStream_same_device_skips_setDeviceIndex Mock.World Mock.backend
              Mock.stream0 (Mock.enter Mock.cuda_fresh) kCUDA
              Mock.cuda_ready Mock.cuda_ready
              (Mock.mkWorld (Some kCUDA) [kCUDA] 2 0
                 (<[0 := Mock.stream0]> ∅) [])
              (Returned tt)) as [Hrun _].
  - reflexivity.
  - reflexivity.
  - reflexivity.
  - reflexivity.
  - rewrite Hrun. split; reflexivity.
Defined.

(** ** Which operations need an accelerator *)

(** C5, as stated, fails for the device count: on a host without any
    accelerator [_accelerator_deviceCount] resolves leniently (line 17 passes
    [false]) and returns the collaborator's count instead of raising. *)
Lemma deviceCount_without_accelerator_returns :
  available (world (Mock.enter Mock.cpu_only)) = None
  /\ _accelerator_deviceCount (Mock.enter Mock.cpu_only)
     = (Returned 0,
        mkMachine Mock.cpu_only true
          [EGetAccelerator false; EMaybeInitializeDeviceOpt None;
           EDeviceCount])
  /\ ~ (forall (W : Type) (B : Backend W) (s : Machine W),
           available (world s) = None ->
           is_raised (fst (_accelerator_deviceCount s)) = true).
Proof.
  split; [reflexivity|]. split; [reflexivity|].
  intros Hall.
  specialize (Hall Mock.World Mock.backend (Mock.enter Mock.cpu_only) eq_refl).
  discriminate Hall.
Qed.

(** C5, amended: set device index, get device index, set stream, get stream
    and synchronize device resolve the accelerator strictly; when none is
    available each of them raises the resolution failure before any other
    collaborator call.  Device count resolves leniently: without an
    accelerator it passes the empty optional to the lazy initialization and
    its outcome is the collaborator's, a raise of the initialization or
    whatever the count call reports. *)
Theorem strict_operations_require_accelerator :
  forall (W : Type) (B : Backend W) (s : Machine W),
    available (world s) = None ->
    let s' := mkMachine (world s) (gil_held s)
                        (trace s ++ [EGetAccelerator true]) in
    (forall i, _accelerator_setDeviceIndex i s = (Raised NoAccelerator, s'))
    /\ _accelerator_getDeviceIndex s = (Raised NoAccelerator, s')
    /\ (forall stream,
           _accelerator_setStream stream s = (Raised NoAccelerator, s'))
    /\ (forall i, _accelerator_getStream i s = (Raised NoAccelerator, s'))
    /\ (forall i,
           _accelerator_synchronizeDevice i s = (Raised NoAccelerator, s'))
    /\ (forall (w1 w2 : W) (r : outcome DeviceIndex),
           maybe_initialize_device_opt None (world s) = (Returned tt, w1) ->
           deviceCount w1 = (r, w2) ->
           _accelerator_deviceCount s
           = (r,
              mkMachine w2 (gil_held s)
                (trace s ++ [EGetAccelerator false;
                             EMaybeInitializeDeviceOpt None; EDeviceCount])))
    /\ (forall (w1 : W) (e : exn),
           maybe_initialize_device_opt None (world s) = (Raised e, w1) ->
           _accelerator_deviceCount s
           = (Raised e,
              mkMachine w1 (gil_held s)
                (trace s ++ [EGetAccelerator false;
                             EMaybeInitializeDeviceOpt None]))).
Proof.
  intros W B s Hnone s'. subst s'.
  repeat split; intros.
  - unfold _accelerator_setDeviceIndex. now apply strict_prologue_none.
  - unfold _accelerator_getDeviceIndex. now apply strict_prologue_none.
  - unfold _accelerator_setStream. now apply strict_prologue_none.
  - unfold _accelerator_getStream. now apply strict_prologue_none.
  - unfold _accelerator_synchronizeDevice. now apply strict_prologue_none.
  - unfold _accelerator_deviceCount.
    rewrite (bind_returned _ _ _ _ _ (getAccelerator_lenient s)).
    rewrite Hnone.
    match goal with
    | Hi : maybe_initialize_device_opt _ _ = _, Hc : deviceCount _ = _ |- _ =>
        run_call Hi; run_call Hc
    end.
    tidy_log.
  - unfold _accelerator_deviceCount.
    rewrite (bind_returned _ _ _ _ _ (getAccelerator_lenient s)).
    rewrite Hnone.
    match goal with
    | Hi : maybe_initialize_device_opt _ _ = _ |- _ => run_call Hi
    end.
    tidy_log.
Qed.

Lemma strict_operations_require_accelerator_witness :
  _accelerator_getDeviceIndex (Mock.enter Mock.cpu_only)
  = (Raised NoAccelerator, mkMachine Mock.cpu_only true [EGetAccelerator true])
  /\ _accelerator_synchronizeDevice 0 (Mock.enter Mock.cpu_only)
     = (Raised NoAccelerator,
        mkMachine Mock.cpu_only true [EGetAccelerator true])
  /\ _accelerator_deviceCount (Mock.enter Mock.cpu_only)
     = (Returned 0,
        mkMachine Mock.cpu_only true
          [EGetAccelerator false; EMaybeInitializeDeviceOpt None;
           EDeviceCount]).
Proof.
  destruct (strict_operations_require_accelerator Mock.World Mock.backend
              (Mock.enter Mock.cpu_only) eq_refl)
    as (_ & Hget & _ & _ & Hsync & Hcount & _).
  split; [exact Hget|]. split; [exact (Hsync 0)|].
  apply (Hcount Mock.cpu_only Mock.cpu_only (Returned 0)); reflexivity.
Defined.

(** ** The interpreter lock around the blocking call *)




Section Lock.
Context {W : Type} `{!Backend W}.

(** Leaving the scope takes the lock back, whatever the body did. *)
Lemma gil_scoped_release_reacquires {A : Type} (body : M W A) s :
  gil_held (snd (gil_scoped_release body s)) = true.
Proof.
  unfold gil_scoped_release. now destruct (body (gil_release s)).
Qed.

(** The synchronize call as the scope of lines 60-63 runs it. *)
Lemma scoped_synchronize (i : DeviceIndex) s r w' :
  synchronizeDevice i (world s) = (r, w') ->
  gil_scoped_release
    (blocking_call (synchronize_event i) (synchronizeDevice i)) s
  = (r,
     mkMachine w' true
       (trace s ++ [EGilRelease; ESynchronizeDevice i; EGilAcquire])).
Proof.
  intros Hsync. unfold gil_scoped_release, blocking_call, gil_release.
  cbn [world gil_held trace]. rewrite Hsync.
  unfold gil_acquire, synchronize_event. simpl. tidy_log.
Qed.

End Lock.



(** ** Every path of every binding

    The lemmas of this section list, for each binding, the call logs that a
    run can produce on any accelerator layer from any state, one per exit
    path.  The properties of whole logs proved afterwards are read off these
    lists. *)

Lemma emits_weaken {W A : Type} (P Q : list Event -> Prop) (m : M W A) s :
  emits P m s -> (forall evs, P evs -> Q evs) -> emits Q m s.
Proof. intros (evs & Hlog & HP) HPQ. exists evs. auto. Qed.

(** Branch on the outcome of the collaborator call that comes next. *)
Ltac explore_call :=
  match goal with
  | |- context [bind (call ?ev ?op) ?k ?s] =>
      let H := fresh "Hcall" in
      let w := eval cbn [world] in (world s) in
      destruct (op w) as [[?|?] ?] eqn:H; run_call H
  | |- context [call ?ev ?op ?s] =>
      let H := fresh "Hcall" in
      let w := eval cbn [world] in (world s) in
      destruct (op w) as [? ?] eqn:H; run_call H
  end.

(** Close a path: name the calls it logged. *)
Ltac close_path :=
  cbn [fst snd world gil_held trace];
  first [ split; [reflexivity|] | idtac ];
  eexists; split; [tidy_log | eauto 12].

Section Paths.
Context {W : Type} `{!Backend W}.

Lemma getStream_paths (i : DeviceIndex) (s : Machine W) :
  gil_held (snd (_accelerator_getStream i s)) = gil_held s
  /\ emits (fun evs =>
             evs = [EGetAccelerator true]
             \/ exists t,
                 evs = [EGetAccelerator true; EMaybeInitializeDevice t]
                 \/ evs = [EGetAccelerator true; EMaybeInitializeDevice t;
                           EGetCurrentStream i])
           (_accelerator_getStream i) s.
Proof.
  unfold emits, _accelerator_getStream.
  destruct (available (world s)) as [t|] eqn:Hav.
  - rewrite (strict_prologue_found _ s t Hav).
    explore_call; [explore_call|]; close_path.
  - rewrite (strict_prologue_none _ s Hav). close_path.
Qed.

Lemma getAccelerator_paths (s : Machine W) :
  gil_held (snd (_accelerator_getAccelerator s)) = gil_held s
  /\ emits (fun evs => evs = [EGetAccelerator false])
           _accelerator_getAccelerator s.
Proof.
  unfold emits, _accelerator_getAccelerator.
  rewrite (bind_returned _ _ _ _ _ (getAccelerator_lenient s)).
  unfold ret. close_path.
Qed.

Lemma deviceCount_paths (s : Machine W) :
  gil_held (snd (_accelerator_deviceCount s)) = gil_held s
  /\ emits (fun evs =>
             exists o,
               evs = [EGetAccelerator false; EMaybeInitializeDeviceOpt o]
               \/ evs = [EGetAccelerator false; EMaybeInitializeDeviceOpt o;
                         EDeviceCount])
           _accelerator_deviceCount s.
Proof.
  unfold emits, _accelerator_deviceCount.
  rewrite (bind_returned _ _ _ _ _ (getAccelerator_lenient s)).
  explore_call; [explore_call|]; close_path.
Qed.

Lemma setDeviceIndex_paths (i : DeviceIndex) (s : Machine W) :
  gil_held (snd (_accelerator_setDeviceIndex i s)) = gil_held s
  /\ emits (fun evs =>
             evs = [EGetAccelerator true]
             \/ exists t,
                 evs = [EGetAccelerator true; EMaybeInitializeDevice t]
                 \/ evs = [EGetAccelerator true; EMaybeInitializeDevice t;
                           ESetDeviceIndex i])
           (_accelerator_setDeviceIndex i) s.
Proof.
  unfold emits, _accelerator_setDeviceIndex.
  destruct (available (world s)) as [t|] eqn:Hav.
  - rewrite (strict_prologue_found _ s t Hav).
    destruct (i <? 0).
    + unfold ret. close_path.
    + explore_call; [explore_call|]; close_path.
  - rewrite (strict_prologue_none _ s Hav). close_path.
Qed.

Lemma getDeviceIndex_paths (s : Machine W) :
  gil_held (snd (_accelerator_getDeviceIndex s)) = gil_held s
  /\ emits (fun evs =>
             evs = [EGetAccelerator true]
             \/ exists t,
                 evs = [EGetAccelerator true; EMaybeInitializeDevice t]
                 \/ evs = [EGetAccelerator true; EMaybeInitializeDevice t;
                           EGetDeviceIndex])
           _accelerator_getDeviceIndex s.
Proof.
  unfold emits, _accelerator_getDeviceIndex.
  destruct (available (world s)) as [t|] eqn:Hav.
  - rewrite (strict_prologue_found _ s t Hav).
    explore_call; [explore_call|]; close_path.
  - rewrite (strict_prologue_none _ s Hav). close_path.
Qed.

Lemma setStream_paths (stream : Stream) (s : Machine W) :
  gil_held (snd (_accelerator_setStream stream s)) = gil_held s
  /\ emits (fun evs =>
             evs = [EGetAccelerator true]
             \/ exists t,
                 evs = [EGetAccelerator true; EMaybeInitializeDevice t]
                 \/ evs = [EGetAccelerator true; EMaybeInitializeDevice t;
                           EGetDeviceIndex]
                 \/ evs = [EGetAccelerator true; EMaybeInitializeDevice t;
                           EGetDeviceIndex;
                           ESetDeviceIndex (device_index stream)]
                 \/ evs = [EGetAccelerator true; EMaybeInitializeDevice t;
                           EGetDeviceIndex;
                           ESetDeviceIndex (device_index stream);
                           ESetCurrentStream stream]
                 \/ evs = [EGetAccelerator true; EMaybeInitializeDevice t;
                           EGetDeviceIndex; ESetCurrentStream stream])
           (_accelerator_setStream stream) s.
Proof.
  unfold emits, _accelerator_setStream.
  destruct (available (world s)) as [t|] eqn:Hav.
  - rewrite (strict_prologue_found _ s t Hav).
    explore_call; [|close_path].
    explore_call; [|close_path].
    match goal with
    | |- context [?c =? device_index stream] =>
        destruct (c =? device_index stream)
    end; cbn [negb].
    + rewrite bind_ret. explore_call. close_path.
    + explore_call; [explore_call|]; close_path.
  - rewrite (strict_prologue_none _ s Hav). close_path.
Qed.

Lemma synchronizeDevice_paths (i : DeviceIndex) (s : Machine W) :
  emits (fun evs =>
           evs = [EGetAccelerator true]
           \/ exists t,
               evs = [EGetAccelerator true; EIsDeviceInitialized t]
               \/ evs = [EGetAccelerator true; EIsDeviceInitialized t;
                         EMaybeInitializeDevice t]
               \/ evs = [EGetAccelerator true; EIsDeviceInitialized t;
                         EMaybeInitializeDevice t; EGilRelease;
                         ESynchronizeDevice i; EGilAcquire])
        (_accelerator_synchronizeDevice i) s.
Proof.
  unfold emits, _accelerator_synchronizeDevice.
  destruct (available (world s)) as [t|] eqn:Hav.
  - rewrite (strict_prologue_found _ s t Hav).
    explore_call; [|close_path].
    match goal with
    | b : bool |- _ => destruct b
    end; cbn [negb].
    + explore_call; [|close_path].
      match goal with
      | |- context [gil_scoped_release _ ?m] =>
          let w := eval cbn [world] in (world m) in
          destruct (synchronizeDevice i w) as [r w3] eqn:Hsync
      end.
      erewrite scoped_synchronize by (simpl; exact Hsync).
      close_path.
    + unfold ret. close_path.
  - rewrite (strict_prologue_none _ s Hav). close_path.
Qed.

End Paths.

(** Read a property of logs off the list of paths. *)
Ltac split_paths H :=
  repeat match type of H with
         | _ \/ _ => destruct H as [H|H]
         | exists _, _ => destruct H as [? H]
         end.

Ltac by_paths L :=
  eapply emits_weaken;
  [ exact L
  | let evs := fresh "evs" in
    let H := fresh "Hpath" in
    intros evs H; cbv beta in H; split_paths H; subst evs ].

(** Check a concrete log call by call. *)
Ltac check_calls :=
  repeat (apply Forall_cons_2;
          [ let Hm := fresh "Hm" in
            simpl; intros Hm; first [ discriminate Hm | simpl; auto 10 ]
          | ]);
  apply Forall_nil_2.

(** ** Get device index and set device index, the paths the claims leave out *)

(** X1: with a resolvable accelerator, [_accelerator_getDeviceIndex] runs the
    lazy initialization and then hands back the collaborator's answer to
    [getDeviceIndex] as it is, value or failure; when the initialization
    raises, the index is never asked for. *)
Theorem getDeviceIndex_returns_collaborator_index :
  forall (W : Type) (B : Backend W) (s : Machine W) (t : DeviceType),
    available (world s) = Some t ->
    (forall (w1 w2 : W) (r : outcome DeviceIndex),
        maybe_initialize_device t (world s) = (Returned tt, w1) ->
        getDeviceIndex w1 = (r, w2) ->
        _accelerator_getDeviceIndex s
        = (r,
           mkMachine w2 (gil_held s)
             (trace s ++ [EGetAccelerator true; EMaybeInitializeDevice t;
                          EGetDeviceIndex])))
    /\
    (forall (w1 : W) (e : exn),
        maybe_initialize_device t (world s) = (Raised e, w1) ->
        _accelerator_getDeviceIndex s
        = (Raised e,
           mkMachine w1 (gil_held s)
             (trace s ++ [EGetAccelerator true; EMaybeInitializeDevice t]))).
Proof.
  intros W B s t Hav.
  unfold _accelerator_getDeviceIndex.
  rewrite (strict_prologue_found _ s t Hav).
  split.
  - intros w1 w2 r Hinit Hget. run_call Hinit. run_call Hget. tidy_log.
  - intros w1 e Hinit. run_call Hinit. tidy_log.
Qed.

Lemma getDeviceIndex_returns_collaborator_index_witness :
  _accelerator_getDeviceIndex (Mock.enter Mock.cuda_fresh)
  = (Returned 0,
     mkMachine Mock.cuda_ready true
       [EGetAccelerator true; EMaybeInitializeDevice kCUDA; EGetDeviceIndex]).
Proof.
  destruct (getDeviceIndex_returns_collaborator_index Mock.World Mock.backend
              (Mock.enter Mock.cuda_fresh) kCUDA eq_refl) as [Hok _].
  apply (Hok Mock.cuda_ready Mock.cuda_ready (Returned 0)); reflexivity.
Defined.

(** X2: the sign test of line 25 is strict: for every index that is zero or
    positive, with a resolvable accelerator, [_accelerator_setDeviceIndex]
    runs the lazy initialization and then calls the collaborator's
    [setDeviceIndex] with that index, whose outcome is the binding's; when
    the initialization raises, the index is not set. *)
Theorem setDeviceIndex_nonnegative_sets :
  forall (W : Type) (B : Backend W) (i : DeviceIndex) (s : Machine W)
         (t : DeviceType),
    0 <= i ->
    available (world s) = Some t ->
    (forall (w1 w2 : W) (r : outcome unit),
        maybe_initialize_device t (world s) = (Returned tt, w1) ->
        setDeviceIndex i w1 = (r, w2) ->
        _accelerator_setDeviceIndex i s
        = (r,
           mkMachine w2 (gil_held s)
             (trace s ++ [EGetAccelerator true; EMaybeInitializeDevice t;
                          ESetDeviceIndex i])))
    /\
    (forall (w1 : W) (e : exn),
        maybe_initialize_device t (world s) = (Raised e, w1) ->
        _accelerator_setDeviceIndex i s
        = (Raised e,
           mkMachine w1 (gil_held s)
             (trace s ++ [EGetAccelerator true; EMaybeInitializeDevice t]))).
Proof.
  intros W B i s t Hpos Hav.
  unfold _accelerator_setDeviceIndex.
  rewrite (strict_prologue_found _ s t Hav).
  apply Z.ltb_ge in Hpos. rewrite Hpos.
  split.
  - intros w1 w2 r Hinit Hset. run_call Hinit. run_call Hset. tidy_log.
  - intros w1 e Hinit. run_call Hinit. tidy_log.
Qed.

Lemma setDeviceIndex_nonnegative_sets_witness :
  _accelerator_setDeviceIndex 0 (Mock.enter Mock.cuda_fresh)
  = (Returned tt,
     mkMachine Mock.cuda_ready true
       [EGetAccelerator true; EMaybeInitializeDevice kCUDA; ESetDeviceIndex 0])
  /\ fst (_accelerator_setDeviceIndex 2 (Mock.enter Mock.cuda_fresh))
     = Raised (BackendError "invalid device index").
Proof.
  split.
  - destruct (setDeviceIndex_nonnegative_sets Mock.World Mock.backend 0
                (Mock.enter Mock.cuda_fresh) kCUDA) as [Hok _].
    + lia.
    + reflexivity.
    + apply (Hok Mock.cuda_ready Mock.cuda_ready (Returned tt)); reflexivity.
  - destruct (setDeviceIndex_nonnegative_sets Mock.World Mock.backend 2
                (Mock.enter Mock.cuda_fresh) kCUDA) as [Hok _].
    + lia.
    + reflexivity.
    + rewrite (Hok Mock.cuda_ready Mock.cuda_ready
                 (Raised (BackendError "invalid device index")));
        reflexivity.
Defined.

(** ** What the bindings never do *)

(** X3: the six bindings other than synchronize leave the interpreter lock
    alone: on any accelerator layer and from any state, held or not, the
    lock status after the call is the one before, and no release or
    reacquisition is logged. *)
Theorem only_synchronize_touches_the_lock :
  forall (W : Type) (B : Backend W) (s : Machine W) (i : DeviceIndex)
         (stream : Stream),
    let quiet := fun evs : list Event =>
                   forallb (fun e => negb (is_lock_marker e)) evs = true in
    (gil_held (snd (_accelerator_getAccelerator s)) = gil_held s
     /\ emits quiet _accelerator_getAccelerator s)
    /\ (gil_held (snd (_accelerator_deviceCount s)) = gil_held s
        /\ emits quiet _accelerator_deviceCount s)
    /\ (gil_held (snd (_accelerator_setDeviceIndex i s)) = gil_held s
        /\ emits quiet (_accelerator_setDeviceIndex i) s)
    /\ (gil_held (snd (_accelerator_getDeviceIndex s)) = gil_held s
        /\ emits quiet _accelerator_getDeviceIndex s)
    /\ (gil_held (snd (_accelerator_setStream stream s)) = gil_held s
        /\ emits quiet (_accelerator_setStream stream) s)
    /\ (gil_held (snd (_accelerator_getStream i s)) = gil_held s
        /\ emits quiet (_accelerator_getStream i) s).
Proof.
  intros W B s i stream quiet. subst quiet.
  repeat apply conj.
  - apply getAccelerator_paths.
  - by_paths (proj2 (getAccelerator_paths s)); reflexivity.
  - apply deviceCount_paths.
  - by_paths (proj2 (deviceCount_paths s)); reflexivity.
  - apply setDeviceIndex_paths.
  - by_paths (proj2 (setDeviceIndex_paths i s)); reflexivity.
  - apply getDeviceIndex_paths.
  - by_paths (proj2 (getDeviceIndex_paths s)); reflexivity.
  - apply setStream_paths.
  - by_paths (proj2 (setStream_paths stream s)); reflexivity.
  - apply getStream_paths.
  - by_paths (proj2 (getStream_paths i s)); reflexivity.
Qed.

(** X4: which bindings can change the active device, change the current
    stream or wait for a device.  The four queries (get accelerator, device
    count, get device index, get stream) never call [setDeviceIndex],
    [setCurrentStream] or [synchronizeDevice]; set device index calls at most
    [setDeviceIndex] with its own argument; set stream calls at most
    [setDeviceIndex] with the stream's device index and [setCurrentStream]
    with the stream; synchronize calls at most [synchronizeDevice] with its
    own argument. *)
Theorem set_and_sync_calls_by_binding :
  forall (W : Type) (B : Backend W) (s : Machine W) (i : DeviceIndex)
         (stream : Stream),
    let at_most := fun (allowed : list Event) (evs : list Event) =>
                     Forall (fun e => is_set_or_sync e = true -> In e allowed)
                            evs in
    emits (at_most []) _accelerator_getAccelerator s
    /\ emits (at_most []) _accelerator_deviceCount s
    /\ emits (at_most []) _accelerator_getDeviceIndex s
    /\ emits (at_most []) (_accelerator_getStream i) s
    /\ emits (at_most [ESetDeviceIndex i]) (_accelerator_setDeviceIndex i) s
    /\ emits (at_most [ESetDeviceIndex (device_index stream);
                       ESetCurrentStream stream])
             (_accelerator_setStream stream) s
    /\ emits (at_most [ESynchronizeDevice i])
             (_accelerator_synchronizeDevice i) s.
Proof.
  intros W B s i stream at_most. subst at_most.
  repeat apply conj.
  - by_paths (proj2 (getAccelerator_paths s));
      check_calls.
  - by_paths (proj2 (deviceCount_paths s));
      check_calls.
  - by_paths (proj2 (getDeviceIndex_paths s));
      check_calls.
  - by_paths (proj2 (getStream_paths i s));
      check_calls.
  - by_paths (proj2 (setDeviceIndex_paths i s));
      check_calls.
  - by_paths (proj2 (setStream_paths stream s));
      check_calls.
  - by_paths (synchronizeDevice_paths i s);
      check_calls.
Qed.

(** X5: every binding starts with the accelerator resolution and resolves
    once: the first call logged is [getAccelerator], lenient in get
    accelerator and device count and strict in the five others, and no later
    call of the run is a resolution. *)
Theorem every_binding_resolves_first :
  forall (W : Type) (B : Backend W) (s : Machine W) (i : DeviceIndex)
         (stream : Stream),
    emits (fun evs => resolves_first false evs = true)
          _accelerator_getAccelerator s
    /\ emits (fun evs => resolves_first false evs = true)
             _accelerator_deviceCount s
    /\ emits (fun evs => resolves_first true evs = true)
             (_accelerator_setDeviceIndex i) s
    /\ emits (fun evs => resolves_first true evs = true)
             _accelerator_getDeviceIndex s
    /\ emits (fun evs => resolves_first true evs = true)
             (_accelerator_setStream stream) s
    /\ emits (fun evs => resolves_first true evs = true)
             (_accelerator_getStream i) s
    /\ emits (fun evs => resolves_first true evs = true)
             (_accelerator_synchronizeDevice i) s.
Proof.
  intros W B s i stream.
  repeat apply conj.
  - by_paths (proj2 (getAccelerator_paths s)); reflexivity.
  - by_paths (proj2 (deviceCount_paths s)); reflexivity.
  - by_paths (proj2 (setDeviceIndex_paths i s)); reflexivity.
  - by_paths (proj2 (getDeviceIndex_paths s)); reflexivity.
  - by_paths (proj2 (setStream_paths stream s)); reflexivity.
  - by_paths (proj2 (getStream_paths i s)); reflexivity.
  - by_paths (synchronizeDevice_paths i s); reflexivity.
Qed.

(** X6: lazy initialization comes first: in every run of every binding, a
    call of [at::accelerator] that acts on devices or streams (device count,
    get or set device index, get or set current stream, synchronize) is made
    only after the run has called [maybe_initialize_device]. *)
Theorem device_calls_follow_initialization :
  forall (W : Type) (B : Backend W) (s : Machine W) (i : DeviceIndex)
         (stream : Stream),
    let lazy := fun evs : list Event =>
                  initialized_before_use false evs = true in
    emits lazy _accelerator_getAccelerator s
    /\ emits lazy _accelerator_deviceCount s
    /\ emits lazy (_accelerator_setDeviceIndex i) s
    /\ emits lazy _accelerator_getDeviceIndex s
    /\ emits lazy (_accelerator_setStream stream) s
    /\ emits lazy (_accelerator_getStream i) s
    /\ emits lazy (_accelerator_synchronizeDevice i) s.
Proof.
  intros W B s i stream lazy. subst lazy.
  repeat apply conj.
  - by_paths (proj2 (getAccelerator_paths s)); reflexivity.
  - by_paths (proj2 (deviceCount_paths s)); reflexivity.
  - by_paths (proj2 (setDeviceIndex_paths i s)); reflexivity.
  - by_paths (proj2 (getDeviceIndex_paths s)); reflexivity.
  - by_paths (proj2 (setStream_paths stream s)); reflexivity.
  - by_paths (proj2 (getStream_paths i s)); reflexivity.
  - by_paths (synchronizeDevice_paths i s); reflexivity.
Qed.

(** ** Failures are the collaborators' *)

Section PerformFacts.
Context {W : Type} `{!Backend W}.

Lemma perform_resolution_found (checked : bool) (w : W) (t : DeviceType) :
  available w = Some t -> perform (EGetAccelerator checked) w = (None, w).
Proof.
  intros Hav. unfold perform.
  now rewrite (getAccelerator_found checked (mkMachine w true []) t Hav).
Qed.

Lemma perform_resolution_strict_none (w : W) :
  available w = None ->
  perform (EGetAccelerator true) w = (Some NoAccelerator, w).
Proof.
  intros Hav. unfold perform.
  now rewrite (getAccelerator_strict_none (mkMachine w true []) Hav).
Qed.

Lemma perform_resolution_lenient (w : W) :
  perform (EGetAccelerator false) w = (None, w).
Proof.
  unfold perform.
  now rewrite (getAccelerator_lenient (mkMachine w true [])).
Qed.

End PerformFacts.

(** Replay one logged call whose outcome is known from the path. *)
Ltac replay_step :=
  cbn [replay];
  first
    [ rewrite perform_resolution_lenient
    | erewrite perform_resolution_found by eassumption
    | rewrite perform_resolution_strict_none by assumption
    | cbn [perform settle];
      match goal with
      | H : ?c = (_, _) |- context [?c] => rewrite H
      end ];
  cbn [fst snd failure].

(** Close a path of a replay: name the log, replay it call by call. *)
Ltac close_replay :=
  cbn [fst snd world gil_held trace];
  eexists; split; [tidy_log|];
  cbn [fst snd world gil_held trace];
  repeat replay_step;
  repeat match goal with r : outcome _ |- _ => destruct r end;
  cbn [replay perform fst snd failure];
  eexists; split; reflexivity.

(** X7: the bindings add no failure and no effect of their own.  For each of
    the seven bindings, on any accelerator layer and from any state, running
    the collaborator calls of the run's log in order from the world the run
    started in reproduces the run: the replay raises exactly when the
    binding raises, with the same failure (so a failure of the binding is
    the resolution failure on a host without accelerator or the failure of a
    collaborator call of that run, passed on untranslated, and [.value()]
    never throws); the replay ends in the world the binding left; and after
    the call that raised, the run logs nothing but the reacquisition of the
    lock. *)
Theorem bindings_raise_only_collaborator_failures :
  forall (W : Type) (B : Backend W) (s : Machine W) (i : DeviceIndex)
         (stream : Stream),
    replays_its_log _accelerator_getAccelerator s
    /\ replays_its_log _accelerator_deviceCount s
    /\ replays_its_log (_accelerator_setDeviceIndex i) s
    /\ replays_its_log _accelerator_getDeviceIndex s
    /\ replays_its_log (_accelerator_setStream stream) s
    /\ replays_its_log (_accelerator_getStream i) s
    /\ replays_its_log (_accelerator_synchronizeDevice i) s.
Proof.
  intros W B s i stream. unfold replays_its_log, emits.
  repeat apply conj.
  - unfold _accelerator_getAccelerator.
    rewrite (bind_returned _ _ _ _ _ (getAccelerator_lenient s)).
    unfold ret. close_replay.
  - unfold _accelerator_deviceCount.
    rewrite (bind_returned _ _ _ _ _ (getAccelerator_lenient s)).
    explore_call; [explore_call|]; close_replay.
  - unfold _accelerator_setDeviceIndex.
    destruct (available (world s)) as [t|] eqn:Hav.
    + rewrite (strict_prologue_found _ s t Hav).
      destruct (i <? 0).
      * unfold ret. close_replay.
      * explore_call; [explore_call|]; close_replay.
    + rewrite (strict_prologue_none _ s Hav). close_replay.
  - unfold _accelerator_getDeviceIndex.
    destruct (available (world s)) as [t|] eqn:Hav.
    + rewrite (strict_prologue_found _ s t Hav).
      explore_call; [explore_call|]; close_replay.
    + rewrite (strict_prologue_none _ s Hav). close_replay.
  - unfold _accelerator_setStream.
    destruct (available (world s)) as [t|] eqn:Hav.
    + rewrite (strict_prologue_found _ s t Hav).
      explore_call; [|close_replay].
      explore_call; [|close_replay].
      match goal with
      | |- context [?c =? device_index stream] =>
          destruct (c =? device_index stream)
      end; cbn [negb].
      * rewrite bind_ret. explore_call. close_replay.
      * explore_call; [explore_call|]; close_replay.
    + rewrite (strict_prologue_none _ s Hav). close_replay.
  - unfold _accelerator_getStream.
    destruct (available (world s)) as [t|] eqn:Hav.
    + rewrite (strict_prologue_found _ s t Hav).
      explore_call; [explore_call|]; close_replay.
    + rewrite (strict_prologue_none _ s Hav). close_replay.
  - unfold _accelerator_synchronizeDevice.
    destruct (available (world s)) as [t|] eqn:Hav.
    + rewrite (strict_prologue_found _ s t Hav).
      explore_call; [|close_replay].
      match goal with
      | b : bool |- _ => destruct b
      end; cbn [negb].
      * explore_call; [|close_replay].
        match goal with
        | |- context [gil_scoped_release _ ?m] =>
            let w := eval cbn [world] in (world m) in
            destruct (synchronizeDevice i w) as [r w3] eqn:Hsyn
        end.
        erewrite scoped_synchronize by (simpl; exact Hsyn).
        close_replay.
      * unfold ret. close_replay.
    + rewrite (strict_prologue_none _ s Hav). close_replay.
Qed.

(** ** What is set is what is got *)

(** Close a path of an analysis of a run that returned. *)
Ltac close_returned :=
  let H := fresh "Hrun" in
  intros H;
  first
    [ discriminate H
    | injection H as ? ?; subst;
      repeat match goal with u : unit |- _ => destruct u end;
      cbn [world]; eauto 8 ].

Section Returned.
Context {W : Type} `{!Backend W}.

(** A set-stream call that returned ended with the activation of the
    stream. *)
Lemma setStream_returned (stream : Stream) (s s1 : Machine W) :
  _accelerator_setStream stream s = (Returned tt, s1) ->
  exists w, setCurrentStream stream w = (Returned tt, world s1).
Proof.
  unfold _accelerator_setStream.
  destruct (available (world s)) as [t|] eqn:Hav.
  - rewrite (strict_prologue_found _ s t Hav).
    explore_call; [|close_returned].
    explore_call; [|close_returned].
    match goal with
    | |- context [?c =? device_index stream] =>
        destruct (c =? device_index stream)
    end; cbn [negb].
    + rewrite bind_ret. explore_call. close_returned.
    + explore_call; [explore_call|]; close_returned.
  - rewrite (strict_prologue_none _ s Hav). close_returned.
Qed.

(** A get-stream call that returned got its stream from the collaborator,
    right after the lazy initialization. *)
Lemma getStream_returned (i : DeviceIndex) (s s2 : Machine W) (got : Stream) :
  _accelerator_getStream i s = (Returned got, s2) ->
  exists t w1 w2,
    maybe_initialize_device t (world s) = (Returned tt, w1)
    /\ getCurrentStream i w1 = (Returned got, w2).
Proof.
  unfold _accelerator_getStream.
  destruct (available (world s)) as [t|] eqn:Hav.
  - rewrite (strict_prologue_found _ s t Hav).
    explore_call; [explore_call|]; close_returned.
  - rewrite (strict_prologue_none _ s Hav). close_returned.
Qed.

(** A set-device-index call on a non-negative index that returned ended
    with the collaborator's set call. *)
Lemma setDeviceIndex_returned (i : DeviceIndex) (s s1 : Machine W) :
  0 <= i ->
  _accelerator_setDeviceIndex i s = (Returned tt, s1) ->
  exists w, setDeviceIndex i w = (Returned tt, world s1).
Proof.
  intros Hpos. apply Z.ltb_ge in Hpos.
  unfold _accelerator_setDeviceIndex.
  destruct (available (world s)) as [t|] eqn:Hav.
  - rewrite (strict_prologue_found _ s t Hav). rewrite Hpos.
    explore_call; [explore_call|]; close_returned.
  - rewrite (strict_prologue_none _ s Hav). close_returned.
Qed.

Lemma getDeviceIndex_returned (s s2 : Machine W) (got : DeviceIndex) :
  _accelerator_getDeviceIndex s = (Returned got, s2) ->
  exists t w1 w2,
    maybe_initialize_device t (world s) = (Returned tt, w1)
    /\ getDeviceIndex w1 = (Returned got, w2).
Proof.
  unfold _accelerator_getDeviceIndex.
  destruct (available (world s)) as [t|] eqn:Hav.
  - rewrite (strict_prologue_found _ s t Hav).
    explore_call; [explore_call|]; close_returned.
  - rewrite (strict_prologue_none _ s Hav). close_returned.
Qed.

End Returned.

#[global] Instance Mock_transparent_init : TransparentInit Mock.World.
Proof.
  split.
  - intros t w w'. simpl. intros [= <-].
    unfold Mock.initialize. now destruct (bool_decide _).
  - intros t i w w'. simpl. intros [= <-].
    unfold Mock.initialize. now destruct (bool_decide _).
Qed.

(** X8: set stream, then get stream.  On an accelerator layer that reads
    back what was set and whose lazy initialization does not disturb the
    stream query, when [_accelerator_setStream] returns and a following
    [_accelerator_getStream] on the stream's device index returns, the
    stream got is the stream set. *)
Theorem getStream_after_setStream :
  forall (W : Type) (B : Backend W),
    LawfulBackend W ->
    TransparentInit W ->
    forall (stream got : Stream) (s s1 s2 : Machine W),
      _accelerator_setStream stream s = (Returned tt, s1) ->
      _accelerator_getStream (device_index stream) s1 = (Returned got, s2) ->
      got = stream.
Proof.
  intros W B Hlaw Hinit stream got s s1 s2 Hset Hget.
  destruct (setStream_returned stream s s1 Hset) as (w & Hact).
  destruct (getStream_returned _ s1 s2 got Hget) as (t & w1 & w2 & Hi & Hq).
  pose proof (getCurrentStream_after_set stream w (world s1) Hact) as Hread.
  pose proof (getCurrentStream_after_init t (device_index stream)
                (world s1) w1 Hi) as Hsame.
  rewrite Hq, Hread in Hsame. simpl in Hsame.
  now injection Hsame.
Qed.

Lemma getStream_after_setStream_witness :
  fst (_accelerator_getStream 1
         (snd (_accelerator_setStream Mock.stream1
                 (Mock.enter Mock.cuda_fresh))))
  = Returned Mock.stream1.
Proof.
  destruct (_accelerator_getStream 1
              (snd (_accelerator_setStream Mock.stream1
                      (Mock.enter Mock.cuda_fresh))))
    as [[got|e] s2] eqn:Hget; [|discriminate Hget].
  simpl. f_equal.
  apply (getStream_after_setStream Mock.World Mock.backend Mock_lawful
           Mock_transparent_init Mock.stream1 got
           (Mock.enter Mock.cuda_fresh)
           (snd (_accelerator_setStream Mock.stream1
                   (Mock.enter Mock.cuda_fresh)))
           s2).
  - reflexivity.
  - exact Hget.
Defined.

(** X9: set device index, then get device index.  On an accelerator layer
    that reads back what was set and whose lazy initialization does not
    disturb the index query, when [_accelerator_setDeviceIndex] returns for
    an index that is zero or positive and a following
    [_accelerator_getDeviceIndex] returns, the index got is the index set. *)
Theorem getDeviceIndex_after_setDeviceIndex :
  forall (W : Type) (B : Backend W),
    LawfulBackend W ->
    TransparentInit W ->
    forall (i got : DeviceIndex) (s s1 s2 : Machine W),
      0 <= i ->
      _accelerator_setDeviceIndex i s = (Returned tt, s1) ->
      _accelerator_getDeviceIndex s1 = (Returned got, s2) ->
      got = i.
Proof.
  intros W B Hlaw Hinit i got s s1 s2 Hpos Hset Hget.
  destruct (setDeviceIndex_returned i s s1 Hpos Hset) as (w & Hact).
  destruct (getDeviceIndex_returned s1 s2 got Hget) as (t & w1 & w2 & Hi & Hq).
  pose proof (getDeviceIndex_after_set i w (world s1) Hact) as Hread.
  pose proof (getDeviceIndex_after_init t (world s1) w1 Hi) as Hsame.
  rewrite Hq, Hread in Hsame. simpl in Hsame.
  now injection Hsame.
Qed.

Lemma getDeviceIndex_after_setDeviceIndex_witness :
  fst (_accelerator_getDeviceIndex
         (snd (_accelerator_setDeviceIndex 1 (Mock.enter Mock.cuda_fresh))))
  = Returned 1.
Proof.
  destruct (_accelerator_getDeviceIndex
              (snd (_accelerator_setDeviceIndex 1
                      (Mock.enter Mock.cuda_fresh))))
    as [[got|e] s2] eqn:Hget; [|discriminate Hget].
  simpl. f_equal.
  apply (getDeviceIndex_after_setDeviceIndex Mock.World Mock.backend
           Mock_lawful Mock_transparent_init 1 got
           (Mock.enter Mock.cuda_fresh)
           (snd (_accelerator_setDeviceIndex 1 (Mock.enter Mock.cuda_fresh)))
           s2).
  - lia.
  - reflexivity.
  - exact Hget.
Defined.
